(** * SkillFoundry: the content-generation service (llmService.ts)

    A shallow embedding of [src/backend/src/services/llmService.ts] and of
    the entity declarations of [src/frontend/src/types/index.ts] it produces
    values for, followed by the properties of the generators, of the gateway
    and of the fallback synthesizers; and of the route table of
    [src/frontend/src/App.tsx] with its two guards.

    Conventions of the embedding:
    - a JavaScript value that travels as JSON is a [json] tree; an object is
      an association list in the order its literal is written;
    - a [number] that the code prints into a template or counts with is an
      integer of [Z] (fractional week counts are outside the model); the one
      fractional constant, the sampling temperature, is a rational;
    - [process.env] is a finite map from names to strings;
    - the two primitives of the platform, [JSON.parse] and [axios.post], are
      not code of this repository: the first is a variable of the section
      that holds the service, the second is the network a computation is run
      against;
    - an [async] method is a computation in the monad [M]: it reads the
      network, appends to a trace (console output, requests sent, methods of
      the service entered) and ends in a value or in a thrown exception. *)

From Stdlib Require Import ZArith QArith.
From stdpp Require Import gmap strings list pretty.
From Equations Require Import Equations.

#[local] Set Warnings "-register-all".

Local Open Scope Z_scope.
Local Open Scope string_scope.

(** ** JSON values *)

Inductive json : Type :=
| JNull
| JBool (b : bool)
| JNum (n : Z)
| JStr (s : string)
| JArr (items : list json)
| JObj (fields : list (string * json)).

(** [o.name] for a property read on a value: the first binding of an object
    literal, nothing for the other shapes. *)
Fixpoint assoc (name : string) (fields : list (string * json)) : option json :=
  match fields with
  | [] => None
  | (k, v) :: rest => if String.eqb k name then Some v else assoc name rest
  end.

Definition field (name : string) (v : json) : option json :=
  match v with
  | JObj fields => assoc name fields
  | _ => None
  end.

(** The double quote and the line feed of the template literals. *)
Definition dq : string := String (Ascii.ascii_of_nat 34) EmptyString.
Definition LF : string := String (Ascii.ascii_of_nat 10) EmptyString.

(** [`${n}`] for an integer number. *)
Definition show (n : Z) : string := pretty n.

(** Lines of a multi-line template literal, joined by line feeds. *)
Fixpoint lines (ls : list string) : string :=
  match ls with
  | [] => ""
  | [l] => l
  | l :: rest => l +:+ LF +:+ lines rest
  end.

(** ** Fallback synthesizers *)

Module Fallback.

(** The object pushed by one turn of the loop of [getFallbackCurriculum]. *)
Definition weekPlan (skill : string) (i : Z) : json :=
  JObj [ ("week", JNum i);
         ("topics", JArr [JStr "topic-1"]);
         ("estimatedHours", JNum 5);
         ("goals", JArr [JStr ("Week " +:+ show i +:+ ": Learn " +:+ skill +:+ " concepts")]) ].

(** [for (let i = 1; i <= weeks; i++) weeklyRoadmap.push({...})], started at
    any [i] with the array built so far. *)
Equations? roadmapLoop (skill : string) (weeks i : Z) (weeklyRoadmap : list json)
  : list json by wf (Z.to_nat (weeks + 1 - i)) lt :=
  roadmapLoop skill weeks i weeklyRoadmap with Z_le_gt_dec i weeks => {
    | left _ => roadmapLoop skill weeks (i + 1) (weeklyRoadmap ++ [weekPlan skill i])%list;
    | right _ => weeklyRoadmap }.
Proof. lia. Qed.

(** A parameter declared [weeks: number = 12]. *)
Definition orDefault (weeks : option Z) : Z :=
  match weeks with Some w => w | None => 12 end.

Definition getFallbackCurriculum (skill level : string) (weeks : option Z) : json :=
  let weeks := orDefault weeks in
  let weeklyRoadmap := roadmapLoop skill weeks 1 [] in
  JObj [ ("modules", JArr [
           JObj [ ("id", JStr "module-1");
                  ("title", JStr (skill +:+ " Fundamentals"));
                  ("description", JStr ("Core concepts and basics of " +:+ skill));
                  ("estimatedWeeks", JNum weeks);
                  ("topics", JArr [
                     JObj [ ("id", JStr "topic-1");
                            ("title", JStr "Introduction");
                            ("description", JStr ("Getting started with " +:+ skill));
                            ("difficulty", JStr level);
                            ("subtopics", JArr [
                               JObj [ ("id", JStr "subtopic-1");
                                      ("title", JStr "Overview");
                                      ("description", JStr ("What is " +:+ skill +:+ "?"));
                                      ("estimatedHours", JNum 2) ] ]) ] ]) ] ]);
         ("weeklyRoadmap", JArr weeklyRoadmap) ].

Definition getFallbackLesson (title : string) : json :=
  JObj [ ("title", JStr title);
         ("objective", JStr ("Learn about " +:+ title));
         ("content", JStr ("This lesson covers the fundamentals of " +:+ title
                           +:+ ". You'll learn key concepts and practical applications."));
         ("examples", JArr [ JStr ("Example 1: Basic " +:+ title +:+ " usage");
                             JStr ("Example 2: Advanced " +:+ title +:+ " techniques") ]);
         ("practiceTask", JStr ("Practice implementing " +:+ title +:+ " concepts")) ].

Definition getFallbackQuiz (title : string) : json :=
  JArr [ JObj [ ("id", JStr "q1");
                ("text", JStr ("What is the main purpose of " +:+ title +:+ "?"));
                ("options", JArr [JStr "Option A"; JStr "Option B"; JStr "Option C"; JStr "Option D"]);
                ("correctAnswer", JNum 0);
                ("explanation", JStr "This is the correct answer because...") ] ].

Definition getFallbackResources (topic : string) : json :=
  JArr [ JObj [ ("topicId", JStr "topic-1");
                ("type", JStr "article");
                ("title", JStr (topic +:+ " Guide"));
                ("level", JStr "beginner");
                ("reason", JStr "Comprehensive introduction");
                ("description", JStr ("Learn " +:+ topic +:+ " fundamentals"));
                ("url", JStr "#") ] ].

Definition getFallbackProjects (module : string) : json :=
  JArr [ JObj [ ("title", JStr (module +:+ " Project"));
                ("description", JStr ("Build a practical project using " +:+ module +:+ " concepts"));
                ("requirements", JArr [JStr "Feature 1"; JStr "Feature 2"]);
                ("techStack", JArr [JStr "Technology 1"; JStr "Technology 2"]);
                ("skillsDemonstrated", JArr [JStr "Skill 1"; JStr "Skill 2"]);
                ("difficulty", JStr "beginner") ] ].

End Fallback.

(** ** Entity declarations (types/index.ts)

    An interface of TypeScript is structural: a value conforms when each
    declared property is present with the declared type. *)

Module Schema.

Definition isString (o : option json) : bool :=
  match o with Some (JStr _) => true | _ => false end.

Definition isNumber (o : option json) : bool :=
  match o with Some (JNum _) => true | _ => false end.

Definition isArrayOf (p : json -> bool) (o : option json) : bool :=
  match o with Some (JArr items) => forallb p items | _ => false end.

Definition isOneOf (literals : list string) (o : option json) : bool :=
  match o with Some (JStr s) => existsb (String.eqb s) literals | _ => false end.

(** ['beginner' | 'intermediate' | 'advanced'] *)
Definition difficulty : list string := ["beginner"; "intermediate"; "advanced"].

Definition Subtopic (v : json) : bool :=
  isString (field "id" v) && isString (field "title" v)
  && isString (field "description" v) && isNumber (field "estimatedHours" v).

Definition Topic (v : json) : bool :=
  isString (field "id" v) && isString (field "title" v)
  && isString (field "description" v) && isArrayOf Subtopic (field "subtopics" v)
  && isOneOf difficulty (field "difficulty" v).

Definition isStringItem (v : json) : bool :=
  match v with JStr _ => true | _ => false end.

(** [interface Module]; the name is a keyword here, hence the underscore. *)
Definition Module_ (v : json) : bool :=
  isString (field "id" v) && isString (field "title" v)
  && isString (field "description" v) && isArrayOf Topic (field "topics" v)
  && isNumber (field "estimatedWeeks" v).

Definition WeeklyPlan (v : json) : bool :=
  isNumber (field "week" v) && isArrayOf isStringItem (field "topics" v)
  && isNumber (field "estimatedHours" v) && isArrayOf isStringItem (field "goals" v).

End Schema.

(** ** The platform: exceptions, the HTTP client, the console *)

Inductive exn : Type :=
| AxiosError (reason : string)      (* a rejected [axios.post] *)
| TypeError (what : string)         (* a property read on [undefined] *)
| SyntaxError                       (* [JSON.parse] on text that is not JSON *)
| Error (message : string).         (* [new Error(message)] *)

(** [interface LLMResponse] *)
Record Message := { content : string }.
Record Choice := { message : Message }.
Record LLMResponse := { choices : list Choice }.

(** The three arguments of [axios.post]. *)
Record ChatMessage := { role : string; text : string }.
Record Body := {
  model : string;
  messages : list ChatMessage;
  max_tokens : Z;
  temperature : Q }.
Record Request := {
  url : string;
  data : Body;
  headers : list (string * string) }.

(** What the client makes of the exchange: the promise is rejected (the
    call errors, or the status is not a success), or it resolves with the
    decoded body. *)
Inductive reply : Type :=
| Rejected (reason : string)
| Resolved (response : LLMResponse).

Definition network : Type := Request -> reply.

(** The methods of the class, as they appear in the trace. *)
Inductive method : Type :=
| CallLLM
| GetFallbackCurriculum
| GetFallbackLesson
| GetFallbackQuiz
| GetFallbackResources
| GetFallbackProjects.

Definition isFallback (m : method) : bool :=
  match m with CallLLM => false | _ => true end.

Inductive event : Type :=
| ConsoleLog (v : json)
| ConsoleError (label : string) (error : exn)
| Post (request : Request)
| Invoke (m : method).

(** ** The monad of the methods *)

Definition M (A : Type) : Type := network -> list event * (exn + A).

Definition ret {A} (a : A) : M A := fun _ => ([], inr a).

Definition throw {A} (e : exn) : M A := fun _ => ([], inl e).

Definition bind {A B} (m : M A) (k : A -> M B) : M B :=
  fun net =>
    match m net with
    | (t, inl e) => (t, inl e)
    | (t, inr a) => let '(t', r) := k a net in ((t ++ t')%list, r)
    end.

(** [try { body } catch (error) { handler }] *)
Definition tryCatch {A} (body : M A) (handler : exn -> M A) : M A :=
  fun net =>
    match body net with
    | (t, inl e) => let '(t', r) := handler e net in ((t ++ t')%list, r)
    | (t, inr a) => (t, inr a)
    end.

Definition emit (ev : event) : M unit := fun _ => ([ev], inr tt).

Notation "x <- m ;; k" := (bind m (fun x => k))
  (at level 100, m at next level, k at level 200, only parsing).
Notation "m ;; k" := (bind m (fun _ => k))
  (at level 100, k at level 200, only parsing).

(** [this.m(...)]: the method is entered, then its body runs. *)
Definition invoke {A} (m : method) (body : M A) : M A :=
  emit (Invoke m) ;; body.

(** [await axios.post(url, data, { headers })] *)
Definition axios_post (r : Request) : M LLMResponse :=
  fun net =>
    match net r with
    | Rejected reason => ([Post r], inl (AxiosError reason))
    | Resolved response => ([Post r], inr response)
    end.

Definition trace {A} (run : list event * (exn + A)) : list event := fst run.
Definition outcome {A} (run : list event * (exn + A)) : exn + A := snd run.

(** ** The service *)

(** [a || b] on a string that may be undefined: the empty string is falsy. *)
Definition orElse (a : option string) (b : string) : string :=
  match a with
  | Some s => if String.eqb s "" then b else s
  | None => b
  end.

Record LLMService := {
  apiUrl : string;
  apiKey : string;
  modelName : string }.

(** [constructor()], given [process.env]: the service it builds and what it
    writes to the console. *)
Definition construct (env : gmap string string) : list event * LLMService :=
  let apiUrl := orElse (env !! "AI_MODEL_API_URL") "https://openrouter.ai/api/v1/chat/completions" in
  let apiKey := orElse (env !! "AI_MODEL_API_KEY") "" in
  let modelName := orElse (env !! "AI_MODEL_NAME") "gpt-3.5-turbo" in
  ([ConsoleLog (JObj [("URL", JStr apiUrl); ("KEY", JStr apiKey); ("MODEL", JStr modelName)])],
   {| apiUrl := apiUrl; apiKey := apiKey; modelName := modelName |}).

(** [process.env] with the credential variable set to [key], or unset. *)
Definition withCredential (key : option string) (env : gmap string string)
  : gmap string string :=
  match key with
  | Some k => <["AI_MODEL_API_KEY" := k]> env
  | None => delete "AI_MODEL_API_KEY" env
  end.

Definition requestOf (self : LLMService) (prompt : string) : Request :=
  {| url := apiUrl self;
     data := {| model := modelName self;
                messages := [ {| role := "user"; text := prompt |} ];
                max_tokens := 2000;
                temperature := (7 # 10)%Q |};
     headers := [ ("Authorization", "Bearer " +:+ apiKey self);
                  ("Content-Type", "application/json");
                  ("HTTP-Referer", "http://localhost:3009");
                  ("X-Title", "SkillFoundry") ] |}.

(** [response.data.choices[0].message.content]: on an empty array the
    element is [undefined] and the read of [message] throws. *)
Definition firstContent (response : LLMResponse) : M string :=
  match choices response with
  | c :: _ => ret (content (message c))
  | [] => throw (TypeError "Cannot read properties of undefined (reading 'message')")
  end.

Definition callLLM (self : LLMService) (prompt : string) : M string :=
  tryCatch
    (response <- axios_post (requestOf self prompt) ;;
     firstContent response)
    (fun error =>
       emit (ConsoleError "LLM API Error:" error) ;;
       throw (Error "Failed to generate content")).

(** *** Prompt templates *)

Definition q (s : string) : string := dq +:+ s +:+ dq.

Definition levels : string := q "beginner" +:+ "|" +:+ q "intermediate" +:+ "|" +:+ q "advanced".

Definition curriculumPrompt (skill level : string) (timePerWeek weeks : Z) : string :=
  lines [
    "Create a comprehensive " +:+ show weeks +:+ "-week curriculum for learning " +:+ q skill
      +:+ " at " +:+ level +:+ " level with " +:+ show timePerWeek +:+ " hours per week.";
    "";
    "Return a JSON object with:";
    "1. " +:+ q "modules" +:+ ": Array of modules, each with:";
    "   - id: unique string";
    "   - title: module name";
    "   - description: brief description";
    "   - estimatedWeeks: number of weeks";
    "   - topics: array of topics, each with:";
    "     - id: unique string";
    "     - title: topic name";
    "     - description: brief description";
    "     - difficulty: " +:+ levels;
    "     - subtopics: array with id, title, description, estimatedHours";
    "";
    "2. " +:+ q "weeklyRoadmap" +:+ ": Array of exactly " +:+ show weeks +:+ " weekly plans with:";
    "   - week: number (1 to " +:+ show weeks +:+ ")";
    "   - topics: array of topic IDs to cover";
    "   - estimatedHours: total hours for the week";
    "   - goals: array of learning goals";
    "";
    "IMPORTANT: Create exactly " +:+ show weeks +:+ " weeks, no more, no less. Distribute all topics across these "
      +:+ show weeks +:+ " weeks.";
    "Make it practical and progressive. Focus on hands-on learning." ].

Definition lessonPrompt (subtopicTitle skill level : string) : string :=
  lines [
    "Create a lesson for " +:+ q subtopicTitle +:+ " in " +:+ skill +:+ " for " +:+ level +:+ " level.";
    "";
    "Return JSON with:";
    "- title: lesson title";
    "- objective: what student will learn";
    "- content: detailed explanation (300-500 words)";
    "- examples: array of 2-3 practical examples";
    "- practiceTask: hands-on task for the student";
    "";
    "Make it engaging and practical." ].

Definition quizPrompt (lessonTitle content : string) : string :=
  lines [
    "Create 5 multiple choice questions for a lesson titled " +:+ q lessonTitle +:+ ".";
    "";
    "Return JSON array of questions, each with:";
    "- id: unique string";
    "- text: question text";
    "- options: array of 4 answer choices";
    "- correctAnswer: index (0-3) of correct answer";
    "- explanation: why the answer is correct";
    "";
    "Base questions on this content: " +:+ String.substring 0 500 content +:+ "..." ].

Definition resourcesPrompt (topicTitle skill level : string) : string :=
  lines [
    "Suggest 8-10 learning resources for " +:+ q topicTitle +:+ " in " +:+ skill +:+ " for " +:+ level +:+ " level.";
    "";
    "Return JSON array with mix of books, courses, articles, and videos. Each resource:";
    "- type: " +:+ q "book" +:+ "|" +:+ q "course" +:+ "|" +:+ q "article" +:+ "|" +:+ q "video";
    "- title: resource title";
    "- authorOrSource: author or platform name";
    "- level: " +:+ levels;
    "- estimatedTime: time to complete";
    "- reason: why recommended (1 sentence)";
    "- description: brief description";
    "- url: valid URL or " +:+ q "#" +:+ " if no valid URL available";
    "";
    "IMPORTANT: Only provide real, valid URLs. If you don't have a valid URL, use " +:+ q "#"
      +:+ " instead. Do not use placeholder URLs like example.com.";
    "Include both free and paid options." ].

Definition projectsPrompt (moduleTitle skill level : string) : string :=
  lines [
    "Create 2-3 project ideas for " +:+ q moduleTitle +:+ " in " +:+ skill +:+ " for " +:+ level +:+ " level.";
    "";
    "Return JSON array of projects, each with:";
    "- title: project name";
    "- description: what to build (2-3 sentences)";
    "- requirements: array of key features";
    "- techStack: array of technologies to use";
    "- skillsDemonstrated: array of skills this project shows";
    "- difficulty: " +:+ levels;
    "";
    "Make projects practical and portfolio-worthy." ].

(** *** The five generators *)

Section Generators.

(** [JSON.parse]: the decoded value, or nothing where it throws. *)
Variable JSON_parse : string -> option json.

Definition parse (text : string) : M json :=
  match JSON_parse text with
  | Some v => ret v
  | None => throw SyntaxError
  end.

Variable self : LLMService.

Definition generateCurriculum (skill level : string) (timePerWeek : Z) (weeks : option Z) : M json :=
  let weeks := Fallback.orDefault weeks in
  let prompt := curriculumPrompt skill level timePerWeek weeks in
  response <- invoke CallLLM (callLLM self prompt) ;;
  tryCatch (parse response)
    (fun _ => invoke GetFallbackCurriculum
                (ret (Fallback.getFallbackCurriculum skill level (Some weeks)))).

Definition generateLesson (subtopicTitle skill level : string) : M json :=
  let prompt := lessonPrompt subtopicTitle skill level in
  response <- invoke CallLLM (callLLM self prompt) ;;
  tryCatch (parse response)
    (fun _ => invoke GetFallbackLesson (ret (Fallback.getFallbackLesson subtopicTitle))).

Definition generateQuiz (lessonTitle content : string) : M json :=
  let prompt := quizPrompt lessonTitle content in
  response <- invoke CallLLM (callLLM self prompt) ;;
  tryCatch (parse response)
    (fun _ => invoke GetFallbackQuiz (ret (Fallback.getFallbackQuiz lessonTitle))).

Definition generateResources (topicTitle skill level : string) : M json :=
  let prompt := resourcesPrompt topicTitle skill level in
  response <- invoke CallLLM (callLLM self prompt) ;;
  tryCatch (parse response)
    (fun _ => invoke GetFallbackResources (ret (Fallback.getFallbackResources topicTitle))).

Definition generateProjects (moduleTitle skill level : string) : M json :=
  let prompt := projectsPrompt moduleTitle skill level in
  response <- invoke CallLLM (callLLM self prompt) ;;
  tryCatch (parse response)
    (fun _ => invoke GetFallbackProjects (ret (Fallback.getFallbackProjects moduleTitle))).

(** A call of one of the five public operations, with its arguments. *)
Inductive operation : Type :=
| GenerateCurriculum (skill level : string) (timePerWeek : Z) (weeks : option Z)
| GenerateLesson (subtopicTitle skill level : string)
| GenerateQuiz (lessonTitle content : string)
| GenerateResources (topicTitle skill level : string)
| GenerateProjects (moduleTitle skill level : string).

Definition perform (op : operation) : M json :=
  match op with
  | GenerateCurriculum skill level timePerWeek weeks => generateCurriculum skill level timePerWeek weeks
  | GenerateLesson subtopicTitle skill level => generateLesson subtopicTitle skill level
  | GenerateQuiz lessonTitle content => generateQuiz lessonTitle content
  | GenerateResources topicTitle skill level => generateResources topicTitle skill level
  | GenerateProjects moduleTitle skill level => generateProjects moduleTitle skill level
  end.

End Generators.

(** What each operation sends, and what it falls back to. *)

Definition promptOf (op : operation) : string :=
  match op with
  | GenerateCurriculum skill level timePerWeek weeks =>
      curriculumPrompt skill level timePerWeek (Fallback.orDefault weeks)
  | GenerateLesson subtopicTitle skill level => lessonPrompt subtopicTitle skill level
  | GenerateQuiz lessonTitle content => quizPrompt lessonTitle content
  | GenerateResources topicTitle skill level => resourcesPrompt topicTitle skill level
  | GenerateProjects moduleTitle skill level => projectsPrompt moduleTitle skill level
  end.

Definition fallbackMethod (op : operation) : method :=
  match op with
  | GenerateCurriculum _ _ _ _ => GetFallbackCurriculum
  | GenerateLesson _ _ _ => GetFallbackLesson
  | GenerateQuiz _ _ => GetFallbackQuiz
  | GenerateResources _ _ _ => GetFallbackResources
  | GenerateProjects _ _ _ => GetFallbackProjects
  end.

Definition fallbackOf (op : operation) : json :=
  match op with
  | GenerateCurriculum skill level _ weeks =>
      Fallback.getFallbackCurriculum skill level (Some (Fallback.orDefault weeks))
  | GenerateLesson subtopicTitle _ _ => Fallback.getFallbackLesson subtopicTitle
  | GenerateQuiz lessonTitle _ => Fallback.getFallbackQuiz lessonTitle
  | GenerateResources topicTitle _ _ => Fallback.getFallbackResources topicTitle
  | GenerateProjects moduleTitle _ _ => Fallback.getFallbackProjects moduleTitle
  end.

(** The error [callLLM] throws; the specification calls it
    GenerationUnavailable. *)
Definition GenerationUnavailable : exn := Error "Failed to generate content".

(** The gateway answers [prompt] with the text [raw]. *)
Definition gatewayReturns (self : LLMService) (net : network) (prompt raw : string) : Prop :=
  outcome (callLLM self prompt net) = inr raw.

(** The gateway call on [prompt] fails: the request is rejected (the call
    errors, or the status is not a success), or the reply resolves without
    a first choice to read the text from. *)
Definition gatewayFails (self : LLMService) (net : network) (prompt : string) : Prop :=
  (exists reason, net (requestOf self prompt) = Rejected reason)
  \/ (exists response, net (requestOf self prompt) = Resolved response
                       /\ choices response = []).

(** No fallback synthesizer was entered. *)
Definition noFallback (t : list event) : Prop :=
  forall m, Invoke m ∈ t -> isFallback m = false.

(** [text.includes(needle)], to tell a placeholder address. *)
Definition includes (needle text : string) : bool :=
  match String.index 0 needle text with Some _ => true | None => false end.

(** The requests of a trace, in the order they were sent. *)
Fixpoint posts (t : list event) : list Request :=
  match t with
  | [] => []
  | Post request :: rest => request :: posts rest
  | _ :: rest => posts rest
  end.

(** What a trace wrote to the console. *)
Definition isConsole (ev : event) : bool :=
  match ev with
  | ConsoleLog _ | ConsoleError _ _ => true
  | _ => false
  end.

(** The value of a header of a request. *)
Fixpoint header (name : string) (hs : list (string * string)) : option string :=
  match hs with
  | [] => None
  | (k, v) :: rest => if String.eqb k name then Some v else header name rest
  end.

(** ** The route table of the front end (App.tsx) *)

Module App.

Inductive page : Type := Login | Register | Dashboard | WeekView | LessonView.

(** What a route shows: a page, or [<Navigate to=... />]. *)
Inductive element : Type :=
| Render (p : page)
| Navigate (to : string).

Section Routes.

(** The answer of [isAuthenticated()], of [utils/auth]. *)
Variable isAuthenticated : bool.

Definition ProtectedRoute (children : element) : element :=
  if isAuthenticated then children else Navigate "/login".

Definition PublicRoute (children : element) : element :=
  if negb isAuthenticated then children else Navigate "/dashboard".

(** The [<Route path=... element=... />] children of [<Routes>], in order. *)
Definition routes : list (string * element) :=
  [ ("/", Navigate "/dashboard");
    ("/login", PublicRoute (Render Login));
    ("/register", PublicRoute (Render Register));
    ("/dashboard", ProtectedRoute (Render Dashboard));
    ("/week/:week", ProtectedRoute (Render WeekView));
    ("/lesson/:subtopicId", ProtectedRoute (Render LessonView)) ].

End Routes.

(** The route a [Navigate] lands on. Its target is looked up among the
    paths of the table as it is written: the targets of this table are
    paths without parameters, which the router matches to themselves. *)
Fixpoint routeOf (to : string) (table : list (string * element)) : option element :=
  match table with
  | [] => None
  | (path, el) :: rest => if String.eqb path to then Some el else routeOf to rest
  end.

(** The page shown after at most [hops] redirections, if there is one. *)
Fixpoint settle (hops : nat) (table : list (string * element)) (el : element)
  : option page :=
  match el with
  | Render p => Some p
  | Navigate to =>
      match hops with
      | O => None
      | S hops' =>
          match routeOf to table with
          | Some el' => settle hops' table el'
          | None => None
          end
      end
  end.

(** The pages behind [ProtectedRoute]. *)
Definition isPrivate (p : page) : bool :=
  match p with
  | Login | Register => false
  | Dashboard | WeekView | LessonView => true
  end.

End App.

(** ** Sample platform, to run the service on concrete replies *)

(** A decoder of the bare literals of JSON; on the texts used below it
    agrees with [JSON.parse]. *)
Definition literalParse (text : string) : option json :=
  if String.eqb text "null" then Some JNull
  else if String.eqb text "true" then Some (JBool true)
  else if String.eqb text "false" then Some (JBool false)
  else if String.eqb text "[]" then Some (JArr [])
  else if String.eqb text "{}" then Some (JObj [])
  else None.

Definition answering (raw : string) : network :=
  fun _ => Resolved {| choices := [ {| message := {| content := raw |} |} ] |}.

Definition verbose (raw : string) : network :=
  fun _ => Resolved {| choices := [ {| message := {| content := raw |} |};
                                    {| message := {| content := "second choice" |} |} ] |}.

Definition unreachable : network := fun _ => Rejected "ECONNREFUSED".

Definition speechless : network := fun _ => Resolved {| choices := [] |}.

Definition service : LLMService := snd (construct ∅).


(** ** How a run unfolds *)

Lemma callLLM_run (self : LLMService) (prompt : string) (net : network) :
  callLLM self prompt net =
  let request := requestOf self prompt in
  match net request with
  | Rejected reason =>
      ([Post request; ConsoleError "LLM API Error:" (AxiosError reason)],
       inl GenerationUnavailable)
  | Resolved response =>
      match choices response with
      | c :: _ => ([Post request], inr (content (message c)))
      | [] =>
          ([Post request;
            ConsoleError "LLM API Error:"
              (TypeError "Cannot read properties of undefined (reading 'message')")],
           inl GenerationUnavailable)
      end
  end.
Proof.
  unfold callLLM, tryCatch, bind, axios_post, firstContent; cbn.
  destruct (net (requestOf self prompt)) as [reason | [[ | c rest]]]; reflexivity.
Qed.

(** The gateway throws nothing but [GenerationUnavailable]. *)
Lemma callLLM_throws (self : LLMService) (prompt : string) (net : network) (e : exn) :
  outcome (callLLM self prompt net) = inl e -> e = GenerationUnavailable.
Proof.
  rewrite callLLM_run; cbn.
  destruct (net _) as [reason | [[ | c rest]]]; cbn; congruence.
Qed.

(** The gateway writes to the console and sends its request, and enters no
    method of the service. *)
Lemma callLLM_trace (self : LLMService) (prompt : string) (net : network) (m : method) :
  Invoke m ∉ trace (callLLM self prompt net).
Proof.
  rewrite callLLM_run; cbn.
  destruct (net _) as [reason | [[ | c rest]]]; cbn;
    rewrite ?elem_of_cons, elem_of_nil; intros H; decompose [or] H; congruence.
Qed.

(** Every generator is the same pipeline over its prompt and its fallback. *)
Lemma perform_run (JSON_parse : string -> option json) (self : LLMService)
    (op : operation) (net : network) :
  perform JSON_parse self op net =
  match callLLM self (promptOf op) net with
  | (t, inl e) => (Invoke CallLLM :: t, inl e)
  | (t, inr raw) =>
      match JSON_parse raw with
      | Some v => (Invoke CallLLM :: t, inr v)
      | None => (Invoke CallLLM :: t ++ [Invoke (fallbackMethod op)], inr (fallbackOf op))
      end
  end.
Proof.
  destruct op; cbn;
    unfold generateCurriculum, generateLesson, generateQuiz, generateResources,
      generateProjects, invoke, tryCatch, bind, parse, emit, ret, throw; cbn;
    destruct (callLLM self _ net) as [t [e | raw]]; cbn; try reflexivity;
    destruct (JSON_parse raw); cbn; rewrite ?app_nil_r; reflexivity.
Qed.

(** An error reaches the caller of a generator only out of the gateway. *)
Lemma perform_throws (JSON_parse : string -> option json) (self : LLMService)
    (op : operation) (net : network) (e : exn) :
  outcome (perform JSON_parse self op net) = inl e ->
  outcome (callLLM self (promptOf op) net) = inl e.
Proof.
  rewrite perform_run.
  destruct (callLLM self (promptOf op) net) as [t [e' | raw]]; cbn.
  - intros [= ->]; reflexivity.
  - destruct (JSON_parse raw); cbn; discriminate.
Qed.

(** The gateway call throws exactly when it fails in the sense above. *)
Lemma callLLM_fails_iff (self : LLMService) (prompt : string) (net : network) :
  outcome (callLLM self prompt net) = inl GenerationUnavailable <->
  gatewayFails self net prompt.
Proof.
  unfold gatewayFails; rewrite callLLM_run; cbn.
  destruct (net _) as [reason | [[ | c rest]]]; cbn; split.
  - intros _; left; by exists reason.
  - done.
  - intros _; right; by eexists.
  - done.
  - done.
  - intros [[reason H] | [response [[= <-] H]]]; discriminate.
Qed.

(** The run of a generator whose gateway call fails. *)
Lemma perform_unavailable (JSON_parse : string -> option json) (self : LLMService)
    (op : operation) (net : network) :
  gatewayFails self net (promptOf op) ->
  exists error : exn,
    perform JSON_parse self op net
    = ([Invoke CallLLM; Post (requestOf self (promptOf op));
        ConsoleError "LLM API Error:" error],
       inl GenerationUnavailable).
Proof.
  unfold gatewayFails; rewrite perform_run, callLLM_run; cbn.
  intros [[reason ->] | [response [-> Hnone]]]; [ | rewrite Hnone ]; by eexists.
Qed.

(** The run of a generator whose reply does not decode. *)
Lemma perform_fallback (JSON_parse : string -> option json) (self : LLMService)
    (op : operation) (net : network) (raw : string) :
  gatewayReturns self net (promptOf op) raw ->
  JSON_parse raw = None ->
  perform JSON_parse self op net
  = ([Invoke CallLLM; Post (requestOf self (promptOf op)); Invoke (fallbackMethod op)],
     inr (fallbackOf op)).
Proof.
  unfold gatewayReturns; rewrite perform_run, callLLM_run; cbn.
  destruct (net _) as [reason | [[ | c rest]]]; cbn; try discriminate.
  intros [= ->] ->; reflexivity.
Qed.

(** ** The decoder: parse or fall back *)

(** C2. For each of the five generators and every input: when the gateway
    call succeeds with a text that [JSON.parse] rejects, the generator
    returns the fallback value of its domain; nothing is thrown, and the
    fallback synthesizer of that domain is what ran. *)
Theorem parse_failure_is_absorbed (JSON_parse : string -> option json)
    (self : LLMService) (op : operation) (net : network) (raw : string) :
  gatewayReturns self net (promptOf op) raw ->
  JSON_parse raw = None ->
  outcome (perform JSON_parse self op net) = inr (fallbackOf op)
  /\ Invoke (fallbackMethod op) ∈ trace (perform JSON_parse self op net).
Proof.
  intros Hraw Hparse.
  rewrite (perform_fallback JSON_parse self op net raw Hraw Hparse); cbn.
  split; [ reflexivity | ].
  rewrite !elem_of_cons; auto.
Qed.

Lemma parse_failure_is_absorbed_witness :
  outcome (perform literalParse service (GenerateLesson "Closures" "JavaScript" "advanced")
             (answering "Sure! Here is your lesson:"))
  = inr (Fallback.getFallbackLesson "Closures").
Proof.
  exact (proj1 (parse_failure_is_absorbed literalParse service
                  (GenerateLesson "Closures" "JavaScript" "advanced")
                  (answering "Sure! Here is your lesson:")
                  "Sure! Here is your lesson:" eq_refl eq_refl)).
Defined.

(** C3. For each of the five generators and every input: when the gateway
    call fails, as it does when the HTTP call behind it errors or answers
    with a status that is not a success, the generator throws
    [GenerationUnavailable], enters no fallback synthesizer and returns no
    value. And against any network, an error that reaches the caller is
    [GenerationUnavailable] out of a failed gateway call: there is no other
    source of errors. *)
Theorem gateway_failure_surfaces (JSON_parse : string -> option json)
    (self : LLMService) (op : operation) (net : network) :
  gatewayFails self net (promptOf op) ->
  outcome (perform JSON_parse self op net) = inl GenerationUnavailable
  /\ noFallback (trace (perform JSON_parse self op net))
  /\ (forall v, outcome (perform JSON_parse self op net) <> inr v)
  /\ (forall (net' : network) (e : exn),
        outcome (perform JSON_parse self op net') = inl e ->
        e = GenerationUnavailable /\ gatewayFails self net' (promptOf op)).
Proof.
  intros Hfails.
  destruct (perform_unavailable JSON_parse self op net Hfails) as [error Hrun].
  rewrite Hrun; cbn; repeat split.
  - intros m; rewrite !elem_of_cons, elem_of_nil.
    intros [Hm | [Hm | [Hm | []]]]; inversion Hm; reflexivity.
  - discriminate.
  - apply (callLLM_throws self (promptOf op) net'), (perform_throws JSON_parse), H.
  - apply perform_throws in H.
    apply callLLM_fails_iff.
    rewrite H; f_equal; apply (callLLM_throws self (promptOf op) net'), H.
Qed.

Lemma gateway_failure_surfaces_witness :
  outcome (perform literalParse service (GenerateResources "Pointers" "C" "beginner") unreachable)
  = inl GenerationUnavailable.
Proof.
  exact (proj1 (gateway_failure_surfaces literalParse service
                  (GenerateResources "Pointers" "C" "beginner") unreachable
                  (or_introl (ex_intro _ "ECONNREFUSED" eq_refl)))).
Defined.

(** A reply that resolves with no choice in it fails inside the gateway
    like a rejected request does. *)
Example empty_reply_is_unavailable :
  perform literalParse service (GenerateLesson "Closures" "JavaScript" "advanced") speechless
  = ([Invoke CallLLM;
      Post (requestOf service (lessonPrompt "Closures" "JavaScript" "advanced"));
      ConsoleError "LLM API Error:"
        (TypeError "Cannot read properties of undefined (reading 'message')")],
     inl GenerationUnavailable).
Proof. reflexivity. Qed.

(** C4. For each of the five generators and every input: when the gateway
    returns a text that [JSON.parse] accepts, the generator returns the
    decoded value as it is, whatever its shape, and enters no fallback
    synthesizer. *)
Theorem parsed_reply_passes_through (JSON_parse : string -> option json)
    (self : LLMService) (op : operation) (net : network) (raw : string) (v : json) :
  gatewayReturns self net (promptOf op) raw ->
  JSON_parse raw = Some v ->
  outcome (perform JSON_parse self op net) = inr v
  /\ noFallback (trace (perform JSON_parse self op net)).
Proof.
  unfold gatewayReturns; intros Hraw Hparse.
  rewrite perform_run.
  pose proof (callLLM_trace self (promptOf op) net) as Htrace.
  destruct (callLLM self (promptOf op) net) as [t [e | raw']]; cbn in *; [ done | ].
  injection Hraw as ->; rewrite Hparse; cbn; split; [ done | ].
  intros m [Hm | Hm]%elem_of_cons.
  - by inversion Hm.
  - by destruct (Htrace m).
Qed.

(** The decoded [null] is no array of questions, and is returned all the
    same. *)
Lemma parsed_reply_passes_through_witness :
  outcome (perform literalParse service (GenerateQuiz "Loops" "for and while") (answering "null"))
  = inr JNull.
Proof.
  exact (proj1 (parsed_reply_passes_through literalParse service
                  (GenerateQuiz "Loops" "for and while") (answering "null")
                  "null" JNull eq_refl eq_refl)).
Defined.

(** C7. For each generator and each pair of calls with the same parameters:
    when the gateway returns the same raw text on both, the two calls end
    alike, in the same returned value after the same trace. *)
Theorem generators_are_deterministic (JSON_parse : string -> option json)
    (self : LLMService) (op : operation) (net1 net2 : network) (raw : string) :
  gatewayReturns self net1 (promptOf op) raw ->
  gatewayReturns self net2 (promptOf op) raw ->
  perform JSON_parse self op net1 = perform JSON_parse self op net2.
Proof.
  unfold gatewayReturns; rewrite !perform_run, !callLLM_run; cbn.
  destruct (net1 _) as [r1 | [[ | c1 rest1]]]; cbn; try discriminate.
  destruct (net2 _) as [r2 | [[ | c2 rest2]]]; cbn; try discriminate.
  intros [= ->] [= ->]; reflexivity.
Qed.

Lemma generators_are_deterministic_witness :
  perform literalParse service (GenerateProjects "Sockets" "Rust" "intermediate")
    (answering "Here are three ideas")
  = perform literalParse service (GenerateProjects "Sockets" "Rust" "intermediate")
      (verbose "Here are three ideas").
Proof.
  exact (generators_are_deterministic literalParse service
           (GenerateProjects "Sockets" "Rust" "intermediate")
           (answering "Here are three ideas") (verbose "Here are three ideas")
           "Here are three ideas" eq_refl eq_refl).
Defined.

(** ** The curriculum fallback *)

(** The loop appends one plan per week from [i] up to [weeks], in order. *)
Lemma roadmapLoop_unroll (skill : string) (weeks : Z) (n : nat) :
  forall (i : Z) (acc : list json),
    weeks + 1 - i = Z.of_nat n ->
    Fallback.roadmapLoop skill weeks i acc
    = (acc ++ (Fallback.weekPlan skill <$> seqZ i (Z.of_nat n)))%list.
Proof.
  induction n as [ | n IH]; intros i acc Hn; simp roadmapLoop;
    destruct (Z_le_gt_dec i weeks) as [Hle | Hgt]; cbn; try lia.
  - rewrite seqZ_nil by lia. cbn. by rewrite app_nil_r.
  - rewrite IH by lia.
    rewrite (seqZ_cons i (Z.of_nat (S n))) by lia.
    rewrite <- app_assoc. cbn.
    replace (Z.succ i) with (i + 1) by lia.
    replace (Z.pred (Z.of_nat (S n))) with (Z.of_nat n) by lia.
    reflexivity.
Qed.

Lemma roadmapLoop_from_1 (skill : string) (weeks : Z) :
  0 <= weeks ->
  Fallback.roadmapLoop skill weeks 1 [] = Fallback.weekPlan skill <$> seqZ 1 weeks.
Proof.
  intros Hweeks.
  rewrite (roadmapLoop_unroll skill weeks (Z.to_nat weeks)) by lia.
  cbn. by rewrite Z2Nat.id.
Qed.

(** With nothing to count, the loop body never runs. *)
Lemma roadmapLoop_none (skill : string) (weeks : Z) :
  weeks <= 0 -> Fallback.roadmapLoop skill weeks 1 [] = [].
Proof.
  intros Hweeks; simp roadmapLoop.
  destruct (Z_le_gt_dec 1 weeks); cbn; [ lia | reflexivity ].
Qed.

(** C1. For every skill, level and [weeks] from 1 to 52, the fallback path
    of [generateCurriculum] returns an object with a [modules] list of one
    module, titled "<skill> Fundamentals", with one topic that has one
    subtopic, and a [weeklyRoadmap] of [weeks] entries whose week numbers
    run 1, 2, ..., [weeks] in that order; each entry refers to the id of
    that one topic and carries the goal "Week <n>: Learn <skill> concepts"
    for its own week number. *)
Theorem curriculum_fallback_shape (JSON_parse : string -> option json)
    (self : LLMService) (net : network)
    (skill level : string) (timePerWeek weeks : Z) (raw : string) :
  1 <= weeks <= 52 ->
  gatewayReturns self net (curriculumPrompt skill level timePerWeek weeks) raw ->
  JSON_parse raw = None ->
  exists (module topic subtopic : json) (topicId : string) (roadmap : list json),
    outcome (generateCurriculum JSON_parse self skill level timePerWeek (Some weeks) net)
    = inr (JObj [("modules", JArr [module]); ("weeklyRoadmap", JArr roadmap)])
    /\ field "title" module = Some (JStr (skill +:+ " Fundamentals"))
    /\ field "topics" module = Some (JArr [topic])
    /\ field "subtopics" topic = Some (JArr [subtopic])
    /\ field "id" topic = Some (JStr topicId)
    /\ Z.of_nat (length roadmap) = weeks
    /\ forall k : nat, (k < length roadmap)%nat ->
         exists entry : json,
           roadmap !! k = Some entry
           /\ field "week" entry = Some (JNum (Z.of_nat k + 1))
           /\ field "topics" entry = Some (JArr [JStr topicId])
           /\ field "goals" entry
              = Some (JArr [JStr ("Week " +:+ show (Z.of_nat k + 1)
                                  +:+ ": Learn " +:+ skill +:+ " concepts")]).
Proof.
  intros Hweeks Hraw Hparse.
  pose proof (perform_fallback JSON_parse self
                (GenerateCurriculum skill level timePerWeek (Some weeks)) net raw Hraw Hparse) as Hrun.
  cbn in Hrun; rewrite Hrun; cbn.
  unfold Fallback.getFallbackCurriculum; cbn.
  rewrite roadmapLoop_from_1 by lia.
  do 3 eexists; exists "topic-1"; eexists.
  split; [ reflexivity | ].
  repeat (split; [ reflexivity | ]).
  rewrite length_fmap, length_seqZ.
  split; [ lia | ].
  intros k Hk.
  exists (Fallback.weekPlan skill (Z.of_nat k + 1)).
  rewrite list_lookup_fmap, lookup_seqZ_lt by lia.
  replace (1 + Z.of_nat k) with (Z.of_nat k + 1) by lia.
  repeat split.
Qed.

Lemma curriculum_fallback_shape_witness :
  exists (module topic subtopic : json) (topicId : string) (roadmap : list json),
    outcome (generateCurriculum literalParse service "Python" "beginner" 5 (Some 12)
               (answering "Week one: install Python."))
    = inr (JObj [("modules", JArr [module]); ("weeklyRoadmap", JArr roadmap)])
    /\ field "title" module = Some (JStr "Python Fundamentals")
    /\ field "topics" module = Some (JArr [topic])
    /\ field "subtopics" topic = Some (JArr [subtopic])
    /\ field "id" topic = Some (JStr topicId)
    /\ Z.of_nat (length roadmap) = 12
    /\ forall k : nat, (k < length roadmap)%nat ->
         exists entry : json,
           roadmap !! k = Some entry
           /\ field "week" entry = Some (JNum (Z.of_nat k + 1))
           /\ field "topics" entry = Some (JArr [JStr topicId])
           /\ field "goals" entry
              = Some (JArr [JStr ("Week " +:+ show (Z.of_nat k + 1)
                                  +:+ ": Learn " +:+ "Python" +:+ " concepts")]).
Proof.
  apply (curriculum_fallback_shape literalParse service
           (answering "Week one: install Python.") "Python" "beginner" 5 12
           "Week one: install Python.").
  - lia.
  - reflexivity.
  - reflexivity.
Defined.

(** The end-to-end scenario of the curriculum: twelve weeks of Python against
    a gateway that answers with prose. *)
Example curriculum_python_12 :
  exists module roadmap,
    outcome (generateCurriculum literalParse service "Python" "beginner" 5 (Some 12)
               (answering "Week one: install Python."))
    = inr (JObj [("modules", JArr [module]); ("weeklyRoadmap", JArr roadmap)])
    /\ length roadmap = 12%nat
    /\ field "title" module = Some (JStr "Python Fundamentals").
Proof. do 2 eexists; split; [ vm_compute; reflexivity | split; reflexivity ]. Qed.

(** C9. For every skill, level and week count, the one topic of the
    curriculum fallback carries the caller's [level] as its [difficulty],
    unchecked; the topic conforms to [Topic] exactly when [level] is one of
    "beginner", "intermediate", "advanced". *)
Theorem curriculum_fallback_difficulty (skill level : string) (weeks : option Z) :
  exists module topic : json,
    field "modules" (Fallback.getFallbackCurriculum skill level weeks) = Some (JArr [module])
    /\ field "topics" module = Some (JArr [topic])
    /\ field "difficulty" topic = Some (JStr level)
    /\ (Schema.Topic topic = true <-> level ∈ Schema.difficulty).
Proof.
  do 2 eexists; repeat (split; [ reflexivity | ]).
  unfold Schema.Topic, Schema.difficulty; cbn.
  rewrite !elem_of_cons, elem_of_nil, !orb_true_iff, !String.eqb_eq.
  intuition congruence.
Qed.

(** A level outside the enumeration gives a topic that is no [Topic]. *)
Example curriculum_fallback_expert :
  exists module topic : json,
    field "modules" (Fallback.getFallbackCurriculum "Go" "expert" (Some 4)) = Some (JArr [module])
    /\ field "topics" module = Some (JArr [topic])
    /\ Schema.Topic topic = false.
Proof. do 2 eexists; repeat split. Qed.

(** ** The quiz, resources and projects fallbacks *)

(** C5. For every lesson title, what [generateQuiz] returns on a parse
    failure is a list of one question, with four options and a
    [correctAnswer] among 0, 1, 2, 3 (it is 0). *)
Theorem quiz_fallback_shape (JSON_parse : string -> option json)
    (self : LLMService) (net : network) (lessonTitle content raw : string) :
  gatewayReturns self net (quizPrompt lessonTitle content) raw ->
  JSON_parse raw = None ->
  exists (question : json) (options : list json) (correctAnswer : Z),
    outcome (generateQuiz JSON_parse self lessonTitle content net) = inr (JArr [question])
    /\ field "options" question = Some (JArr options)
    /\ length options = 4%nat
    /\ field "correctAnswer" question = Some (JNum correctAnswer)
    /\ correctAnswer ∈ [0; 1; 2; 3]
    /\ correctAnswer = 0.
Proof.
  intros Hraw Hparse.
  pose proof (perform_fallback JSON_parse self
                (GenerateQuiz lessonTitle content) net raw Hraw Hparse) as Hrun.
  cbn in Hrun; rewrite Hrun; cbn.
  do 3 eexists; repeat (split; [ reflexivity | ]).
  split; [ apply elem_of_cons; by left | reflexivity ].
Qed.

Lemma quiz_fallback_shape_witness :
  exists (question : json) (options : list json) (correctAnswer : Z),
    outcome (generateQuiz literalParse service "Loops" "for and while"
               (answering "1) What is a loop?")) = inr (JArr [question])
    /\ field "options" question = Some (JArr options)
    /\ length options = 4%nat
    /\ field "correctAnswer" question = Some (JNum correctAnswer)
    /\ correctAnswer ∈ [0; 1; 2; 3]
    /\ correctAnswer = 0.
Proof.
  exact (quiz_fallback_shape literalParse service (answering "1) What is a loop?")
           "Loops" "for and while" "1) What is a loop?" eq_refl eq_refl).
Defined.

(** C6. For every topic title, what [generateResources] returns on a parse
    failure is a list of one resource, of type "article", whose [url] is
    exactly "#"; no resource of that list has a [url] that mentions
    example.com. *)
Theorem resources_fallback_shape (JSON_parse : string -> option json)
    (self : LLMService) (net : network) (topicTitle skill level raw : string) :
  gatewayReturns self net (resourcesPrompt topicTitle skill level) raw ->
  JSON_parse raw = None ->
  exists resource : json,
    outcome (generateResources JSON_parse self topicTitle skill level net)
    = inr (JArr [resource])
    /\ field "type" resource = Some (JStr "article")
    /\ field "url" resource = Some (JStr "#")
    /\ forall (r : json) (u : string),
         r ∈ [resource] -> field "url" r = Some (JStr u) ->
         includes "example.com" u = false.
Proof.
  intros Hraw Hparse.
  pose proof (perform_fallback JSON_parse self
                (GenerateResources topicTitle skill level) net raw Hraw Hparse) as Hrun.
  cbn in Hrun; rewrite Hrun; cbn.
  eexists; repeat (split; [ reflexivity | ]).
  intros r u ->%list_elem_of_singleton; cbn.
  intros [= <-]; reflexivity.
Qed.

Lemma resources_fallback_shape_witness :
  exists resource : json,
    outcome (generateResources literalParse service "Pointers" "C" "beginner"
               (answering "See https://example.com/pointers"))
    = inr (JArr [resource])
    /\ field "type" resource = Some (JStr "article")
    /\ field "url" resource = Some (JStr "#")
    /\ forall (r : json) (u : string),
         r ∈ [resource] -> field "url" r = Some (JStr u) ->
         includes "example.com" u = false.
Proof.
  exact (resources_fallback_shape literalParse service
           (answering "See https://example.com/pointers")
           "Pointers" "C" "beginner" "See https://example.com/pointers" eq_refl eq_refl).
Defined.

(** C10. For every module title, skill and level, what [generateProjects]
    returns on a parse failure is a list of one project whose [difficulty]
    is "beginner"; the value is the same whatever the level asked for. *)
Theorem projects_fallback_ignores_level (JSON_parse : string -> option json)
    (self : LLMService) (net net' : network)
    (moduleTitle skill level level' raw raw' : string) :
  gatewayReturns self net (projectsPrompt moduleTitle skill level) raw ->
  JSON_parse raw = None ->
  gatewayReturns self net' (projectsPrompt moduleTitle skill level') raw' ->
  JSON_parse raw' = None ->
  exists project : json,
    outcome (generateProjects JSON_parse self moduleTitle skill level net)
    = inr (JArr [project])
    /\ field "difficulty" project = Some (JStr "beginner")
    /\ outcome (generateProjects JSON_parse self moduleTitle skill level' net')
       = inr (JArr [project]).
Proof.
  intros Hraw Hparse Hraw' Hparse'.
  pose proof (perform_fallback JSON_parse self
                (GenerateProjects moduleTitle skill level) net raw Hraw Hparse) as Hrun.
  pose proof (perform_fallback JSON_parse self
                (GenerateProjects moduleTitle skill level') net' raw' Hraw' Hparse') as Hrun'.
  cbn in Hrun, Hrun'; rewrite Hrun, Hrun'; cbn.
  eexists; repeat split.
Qed.

Lemma projects_fallback_ignores_level_witness :
  exists project : json,
    outcome (generateProjects literalParse service "Sockets" "Rust" "advanced"
               (answering "Build a chat server."))
    = inr (JArr [project])
    /\ field "difficulty" project = Some (JStr "beginner")
    /\ outcome (generateProjects literalParse service "Sockets" "Rust" "intermediate"
                  (answering "Build an echo server."))
       = inr (JArr [project]).
Proof.
  exact (projects_fallback_ignores_level literalParse service
           (answering "Build a chat server.") (answering "Build an echo server.")
           "Sockets" "Rust" "advanced" "intermediate"
           "Build a chat server." "Build an echo server."
           eq_refl eq_refl eq_refl eq_refl).
Defined.

(** ** The diagnostic record of the constructor *)

Lemma lookup_withCredential (key : option string) (env : gmap string string) :
  withCredential key env !! "AI_MODEL_API_KEY" = key.
Proof.
  destruct key; cbn; [ apply lookup_insert_eq | apply lookup_delete_eq ].
Qed.

Lemma lookup_withCredential_ne (key : option string) (env : gmap string string)
    (name : string) :
  name <> "AI_MODEL_API_KEY" -> withCredential key env !! name = env !! name.
Proof.
  intros Hname; destruct key; cbn;
    [ apply lookup_insert_ne | apply lookup_delete_ne ]; congruence.
Qed.

(** What the constructor logs, for any credential setting. *)
Lemma construct_log (key : option string) (env : gmap string string) :
  fst (construct (withCredential key env))
  = [ConsoleLog (JObj [("URL", JStr (apiUrl (snd (construct env))));
                       ("KEY", JStr (orElse key ""));
                       ("MODEL", JStr (modelName (snd (construct env))))])].
Proof.
  unfold construct; cbn.
  rewrite lookup_withCredential, !lookup_withCredential_ne by discriminate.
  reflexivity.
Qed.

(** Two credentials, everything else alike: the two logs differ. *)
Lemma construct_log_differs :
  fst (construct (withCredential (Some "sk-or-v1-aaaa") ∅))
  <> fst (construct (withCredential (Some "sk-or-v1-bbbb") ∅)).
Proof. rewrite !construct_log; cbn; discriminate. Qed.

(** C8, amended. The record logged at construction is made of the resolved
    endpoint, credential and model name: the credential is in it, under
    [KEY]. For two settings of the credential, all other variables of the
    environment being equal, the two logs are equal exactly when the two
    settings resolve to the same credential; the logged endpoint and model
    name do not depend on the credential. *)
Theorem construct_log_shows_credential (env : gmap string string)
    (key1 key2 : option string) :
  fst (construct (withCredential key1 env))
  = [ConsoleLog (JObj [("URL", JStr (apiUrl (snd (construct env))));
                       ("KEY", JStr (apiKey (snd (construct (withCredential key1 env)))));
                       ("MODEL", JStr (modelName (snd (construct env))))])]
  /\ apiKey (snd (construct (withCredential key1 env))) = orElse key1 ""
  /\ (fst (construct (withCredential key1 env)) = fst (construct (withCredential key2 env))
      <-> orElse key1 "" = orElse key2 "").
Proof.
  assert (Hkey : apiKey (snd (construct (withCredential key1 env))) = orElse key1 "").
  { unfold construct; cbn. by rewrite lookup_withCredential. }
  rewrite Hkey, !construct_log.
  repeat split.
  - intros [= H]; exact H.
  - intros ->; reflexivity.
Qed.

(** ** Further properties of the generators *)

(** The four ways a run of a generator can go, read off the network. *)
Lemma perform_cases (JSON_parse : string -> option json) (self : LLMService)
    (op : operation) (net : network) :
  perform JSON_parse self op net =
  let request := requestOf self (promptOf op) in
  match net request with
  | Rejected reason =>
      ([Invoke CallLLM; Post request; ConsoleError "LLM API Error:" (AxiosError reason)],
       inl GenerationUnavailable)
  | Resolved response =>
      match choices response with
      | [] =>
          ([Invoke CallLLM; Post request;
            ConsoleError "LLM API Error:"
              (TypeError "Cannot read properties of undefined (reading 'message')")],
           inl GenerationUnavailable)
      | c :: _ =>
          match JSON_parse (content (message c)) with
          | Some v => ([Invoke CallLLM; Post request], inr v)
          | None => ([Invoke CallLLM; Post request; Invoke (fallbackMethod op)],
                     inr (fallbackOf op))
          end
      end
  end.
Proof.
  rewrite perform_run, callLLM_run; cbn.
  destruct (net _) as [reason | [[ | c rest]]]; reflexivity.
Qed.

Lemma fallbackMethod_isFallback (op : operation) : isFallback (fallbackMethod op) = true.
Proof. destruct op; reflexivity. Qed.

(** X3. Whatever the network answers and however the run ends, a generator
    sends one request and one only, the one that carries its prompt: a
    failure is not retried, a reply that does not decode is not asked for
    again. *)
Theorem one_request_per_call (JSON_parse : string -> option json)
    (self : LLMService) (op : operation) (net : network) :
  posts (trace (perform JSON_parse self op net)) = [requestOf self (promptOf op)].
Proof.
  rewrite perform_cases; cbn.
  destruct (net _) as [reason | [[ | c rest]]]; cbn; try reflexivity.
  destruct (JSON_parse _); reflexivity.
Qed.

(** X4. A generator writes to the console exactly when it throws: the
    failure of the gateway is logged, while a reply that does not decode is
    replaced by the fallback without a word on the console. *)
Theorem console_iff_unavailable (JSON_parse : string -> option json)
    (self : LLMService) (op : operation) (net : network) :
  (exists ev, ev ∈ trace (perform JSON_parse self op net) /\ isConsole ev = true)
  <-> outcome (perform JSON_parse self op net) = inl GenerationUnavailable.
Proof.
  rewrite perform_cases; cbn.
  destruct (net _) as [reason | [[ | c rest]]]; cbn.
  - split; [ reflexivity | intros _ ].
    exists (ConsoleError "LLM API Error:" (AxiosError reason)).
    split; [ | reflexivity ].
    rewrite !elem_of_cons; right; right; left; reflexivity.
  - split; [ reflexivity | intros _ ].
    exists (ConsoleError "LLM API Error:"
              (TypeError "Cannot read properties of undefined (reading 'message')")).
    split; [ | reflexivity ].
    rewrite !elem_of_cons; right; right; left; reflexivity.
  - destruct (JSON_parse _); cbn; (split; [ | discriminate ]);
      intros [ev [Hin Hev]]; revert Hin; rewrite !elem_of_cons, elem_of_nil;
      intros Hin; decompose [or] Hin; subst; try discriminate; contradiction.
Qed.

(** X5. A fallback synthesizer is entered exactly when the gateway returned
    a text that does not decode, and then it is the synthesizer of the
    generator's own domain, never that of another. *)
Theorem fallback_entered_iff (JSON_parse : string -> option json)
    (self : LLMService) (op : operation) (net : network) (m : method) :
  Invoke m ∈ trace (perform JSON_parse self op net) /\ isFallback m = true
  <-> m = fallbackMethod op
      /\ exists raw, gatewayReturns self net (promptOf op) raw /\ JSON_parse raw = None.
Proof.
  unfold gatewayReturns; rewrite perform_cases, callLLM_run; cbn.
  pose proof (fallbackMethod_isFallback op) as Hfb.
  assert (Hcall : forall t : list event,
             Invoke m ∈ Invoke CallLLM :: Post (requestOf self (promptOf op)) :: t ->
             isFallback m = true -> Invoke m ∈ t).
  { intros t [[= ->] | [[=] | Hin]%elem_of_cons]%elem_of_cons Hm;
      [ discriminate | exact Hin ]. }
  destruct (net _) as [reason | [[ | c rest]]]; cbn.
  1, 2: split;
    [ intros [Hin Hm]; apply Hcall in Hin; [ | exact Hm ];
      apply list_elem_of_singleton in Hin; discriminate
    | intros [_ [raw [[=] _]]] ].
  destruct (JSON_parse (content (message c))) eqn:Hparse; cbn; split.
  - intros [Hin Hm]; apply Hcall in Hin; [ | exact Hm ].
    by apply elem_of_nil in Hin.
  - intros [_ [raw [[= <-] Hnone]]]; congruence.
  - intros [Hin Hm]; apply Hcall in Hin; [ | exact Hm ].
    apply list_elem_of_singleton in Hin; injection Hin as ->.
    split; [ reflexivity | ]. by eexists.
  - intros [-> _]; split; [ | exact Hfb ].
    rewrite !elem_of_cons; auto.
Qed.

(** ** Further properties of the constructor and of the request *)

Lemma orElse_empty_unset (env : gmap string string) (name key fallback : string) :
  orElse (<[name := ""]> env !! key) fallback = orElse (delete name env !! key) fallback.
Proof.
  destruct (decide (name = key)) as [-> | Hne].
  - by rewrite lookup_insert_eq, lookup_delete_eq.
  - by rewrite lookup_insert_ne, lookup_delete_ne.
Qed.

Lemma orElse_nonempty (a : option string) (fallback : string) :
  fallback <> "" -> orElse a fallback <> "".
Proof.
  intros Hfallback; unfold orElse.
  destruct a as [s | ]; [ | exact Hfallback ].
  destruct (String.eqb s "") eqn:Hs; [ exact Hfallback | ].
  by apply String.eqb_neq.
Qed.

(** X1. A variable of the environment that is set to the empty string counts
    as unset: the constructor builds the same service, and logs the same
    record, as if the variable were absent. *)
Theorem construct_empty_is_unset (env : gmap string string) (name : string) :
  construct (<[name := ""]> env) = construct (delete name env).
Proof.
  unfold construct; cbn.
  by rewrite !(orElse_empty_unset env name).
Qed.

(** X2. Whatever the environment holds, the constructed service has an
    endpoint and a model name that are not empty; only the credential can be
    empty, and it is when the variable is unset or empty. *)
Theorem construct_never_empty (env : gmap string string) :
  apiUrl (snd (construct env)) <> ""
  /\ modelName (snd (construct env)) <> ""
  /\ (apiKey (snd (construct env)) = ""
      <-> env !! "AI_MODEL_API_KEY" = None \/ env !! "AI_MODEL_API_KEY" = Some "").
Proof.
  unfold construct; cbn.
  split; [ by apply orElse_nonempty | ].
  split; [ by apply orElse_nonempty | ].
  unfold orElse.
  destruct (env !! "AI_MODEL_API_KEY") as [s | ]; [ | by intuition ].
  destruct (String.eqb s "") eqn:Hs.
  - apply String.eqb_eq in Hs as ->. by intuition.
  - apply String.eqb_neq in Hs. split; [ done | ].
    intros [[=] | [= ->]]; done.
Qed.

Lemma construct_withCredential (key : option string) (env : gmap string string) :
  snd (construct (withCredential key env))
  = {| apiUrl := apiUrl (snd (construct env));
       apiKey := orElse key "";
       modelName := modelName (snd (construct env)) |}.
Proof.
  unfold construct; cbn [snd apiUrl modelName].
  by rewrite lookup_withCredential, !lookup_withCredential_ne.
Qed.

Lemma header_skip (name k v : string) (rest : list (string * string)) :
  name <> k -> header name ((k, v) :: rest) = header name rest.
Proof.
  intros Hname; cbn [header].
  destruct (String.eqb_spec k name); congruence.
Qed.

(** X11. The credential of the environment reaches the wire in the
    [Authorization] header, as "Bearer <credential>", and nowhere else: two
    services built from environments that differ in the credential alone send
    requests with the same address, the same body and the same other
    headers. *)
Theorem credential_only_in_header (env : gmap string string)
    (key1 key2 : option string) (prompt : string) :
  let request1 := requestOf (snd (construct (withCredential key1 env))) prompt in
  let request2 := requestOf (snd (construct (withCredential key2 env))) prompt in
  url request1 = url request2
  /\ data request1 = data request2
  /\ header "Authorization" (headers request1) = Some ("Bearer " +:+ orElse key1 "")
  /\ forall name, name <> "Authorization" ->
       header name (headers request1) = header name (headers request2).
Proof.
  cbv zeta; rewrite !construct_withCredential.
  unfold requestOf; cbn [url data headers apiUrl apiKey modelName].
  repeat split.
  intros name Hname.
  by rewrite !(header_skip name "Authorization").
Qed.

(** ** The excerpt of the quiz prompt *)




(** ** Further properties of the fallbacks *)

(** The roadmap of the fallback, for any week count. *)
Lemma roadmapLoop_all (skill : string) (weeks : Z) :
  Fallback.roadmapLoop skill weeks 1 [] = Fallback.weekPlan skill <$> seqZ 1 weeks.
Proof.
  destruct (Z_le_gt_dec 0 weeks) as [Hle | Hgt].
  - by apply roadmapLoop_from_1.
  - rewrite roadmapLoop_none, seqZ_nil by lia. reflexivity.
Qed.

Lemma weekPlans_conform (skill : string) (numbers : list Z) :
  forallb Schema.WeeklyPlan (Fallback.weekPlan skill <$> numbers) = true.
Proof.
  induction numbers as [ | i numbers IH]; [ reflexivity | ].
  cbn [fmap list_fmap forallb]; rewrite IH; reflexivity.
Qed.

(** X7. For any week count, omitted (then it is 12), zero or negative
    included: the roadmap of the curriculum fallback has one entry per week
    from 1 up to the count, in order, and none when the count is below 1,
    while the module reports the count itself as its [estimatedWeeks]. *)
Theorem curriculum_fallback_roadmap (skill level : string) (weeks : option Z) :
  exists (module : json) (roadmap : list json),
    Fallback.getFallbackCurriculum skill level weeks
    = JObj [("modules", JArr [module]); ("weeklyRoadmap", JArr roadmap)]
    /\ field "estimatedWeeks" module = Some (JNum (Fallback.orDefault weeks))
    /\ length roadmap = Z.to_nat (Fallback.orDefault weeks)
    /\ field "week" <$> roadmap
       = (fun i => Some (JNum i)) <$> seqZ 1 (Fallback.orDefault weeks).
Proof.
  unfold Fallback.getFallbackCurriculum; cbn zeta.
  rewrite roadmapLoop_all.
  do 2 eexists; split; [ reflexivity | ].
  split; [ reflexivity | ].
  rewrite length_fmap, length_seqZ; split; [ reflexivity | ].
  rewrite <- list_fmap_compose; reflexivity.
Qed.

(** X8. For any skill, level and week count, every entry of the roadmap of
    the curriculum fallback conforms to [WeeklyPlan], and its modules conform
    to [Module] exactly when the level is one of "beginner", "intermediate",
    "advanced". *)
Theorem curriculum_fallback_conforms (skill level : string) (weeks : option Z) :
  exists modules roadmap : list json,
    Fallback.getFallbackCurriculum skill level weeks
    = JObj [("modules", JArr modules); ("weeklyRoadmap", JArr roadmap)]
    /\ forallb Schema.WeeklyPlan roadmap = true
    /\ (forallb Schema.Module_ modules = true <-> level ∈ Schema.difficulty).
Proof.
  unfold Fallback.getFallbackCurriculum; cbn zeta.
  rewrite roadmapLoop_all.
  do 2 eexists; split; [ reflexivity | ].
  split; [ apply weekPlans_conform | ].
  unfold Schema.Module_, Schema.Topic, Schema.difficulty; cbn.
  rewrite !elem_of_cons, elem_of_nil, !andb_true_r, !orb_true_iff, !String.eqb_eq.
  intuition congruence.
Qed.

(** X9. The hours per week asked for do not reach the curriculum fallback:
    on the parse-failure path [generateCurriculum] returns the same value
    for any two [timePerWeek], and every week of its roadmap is planned at 5
    hours. *)
Theorem curriculum_fallback_ignores_hours (JSON_parse : string -> option json)
    (self : LLMService) (net net' : network) (skill level : string)
    (timePerWeek timePerWeek' : Z) (weeks : option Z) (raw raw' : string) :
  gatewayReturns self net
    (curriculumPrompt skill level timePerWeek (Fallback.orDefault weeks)) raw ->
  JSON_parse raw = None ->
  gatewayReturns self net'
    (curriculumPrompt skill level timePerWeek' (Fallback.orDefault weeks)) raw' ->
  JSON_parse raw' = None ->
  exists (modules roadmap : list json),
    outcome (generateCurriculum JSON_parse self skill level timePerWeek weeks net)
    = inr (JObj [("modules", JArr modules); ("weeklyRoadmap", JArr roadmap)])
    /\ outcome (generateCurriculum JSON_parse self skill level timePerWeek' weeks net')
       = inr (JObj [("modules", JArr modules); ("weeklyRoadmap", JArr roadmap)])
    /\ Forall (fun plan => field "estimatedHours" plan = Some (JNum 5)) roadmap.
Proof.
  intros Hraw Hparse Hraw' Hparse'.
  pose proof (perform_fallback JSON_parse self
                (GenerateCurriculum skill level timePerWeek weeks) net raw Hraw Hparse) as Hrun.
  pose proof (perform_fallback JSON_parse self
                (GenerateCurriculum skill level timePerWeek' weeks) net' raw' Hraw' Hparse')
    as Hrun'.
  cbn in Hrun, Hrun'; rewrite Hrun, Hrun'; cbn.
  unfold Fallback.getFallbackCurriculum; cbn zeta.
  rewrite roadmapLoop_all.
  do 2 eexists; split; [ reflexivity | ]. split; [ reflexivity | ].
  apply Forall_fmap, Forall_forall; intros i _; reflexivity.
Qed.

Lemma curriculum_fallback_ignores_hours_witness :
  exists (modules roadmap : list json),
    outcome (generateCurriculum literalParse service "Go" "beginner" 2 (Some 3)
               (answering "Start with the tour."))
    = inr (JObj [("modules", JArr modules); ("weeklyRoadmap", JArr roadmap)])
    /\ outcome (generateCurriculum literalParse service "Go" "beginner" 20 (Some 3)
                  (answering "Read the spec."))
       = inr (JObj [("modules", JArr modules); ("weeklyRoadmap", JArr roadmap)])
    /\ Forall (fun plan => field "estimatedHours" plan = Some (JNum 5)) roadmap.
Proof.
  exact (curriculum_fallback_ignores_hours literalParse service
           (answering "Start with the tour.") (answering "Read the spec.")
           "Go" "beginner" 2 20 (Some 3) "Start with the tour." "Read the spec."
           eq_refl eq_refl eq_refl eq_refl).
Defined.

(** X10. What [generateLesson] returns on a parse failure is made from the
    subtopic title alone: its [title] is that title as given, it has two
    examples, its [objective], [content] and [practiceTask] are strings, and
    the value is the same whatever the skill and the level. *)
Theorem lesson_fallback_shape (JSON_parse : string -> option json)
    (self : LLMService) (net net' : network)
    (subtopicTitle skill skill' level level' raw raw' : string) :
  gatewayReturns self net (lessonPrompt subtopicTitle skill level) raw ->
  JSON_parse raw = None ->
  gatewayReturns self net' (lessonPrompt subtopicTitle skill' level') raw' ->
  JSON_parse raw' = None ->
  exists (lesson : json) (examples : list json),
    outcome (generateLesson JSON_parse self subtopicTitle skill level net) = inr lesson
    /\ outcome (generateLesson JSON_parse self subtopicTitle skill' level' net') = inr lesson
    /\ field "title" lesson = Some (JStr subtopicTitle)
    /\ field "examples" lesson = Some (JArr examples)
    /\ length examples = 2%nat
    /\ forallb Schema.isStringItem examples = true
    /\ Schema.isString (field "objective" lesson) = true
    /\ Schema.isString (field "content" lesson) = true
    /\ Schema.isString (field "practiceTask" lesson) = true.
Proof.
  intros Hraw Hparse Hraw' Hparse'.
  pose proof (perform_fallback JSON_parse self
                (GenerateLesson subtopicTitle skill level) net raw Hraw Hparse) as Hrun.
  pose proof (perform_fallback JSON_parse self
                (GenerateLesson subtopicTitle skill' level') net' raw' Hraw' Hparse') as Hrun'.
  cbn in Hrun, Hrun'; rewrite Hrun, Hrun'; cbn.
  do 2 eexists; repeat split.
Qed.

Lemma lesson_fallback_shape_witness :
  exists (lesson : json) (examples : list json),
    outcome (generateLesson literalParse service "Closures" "JavaScript" "advanced"
               (answering "A closure is")) = inr lesson
    /\ outcome (generateLesson literalParse service "Closures" "Lisp" "beginner"
                  (answering "(lambda")) = inr lesson
    /\ field "title" lesson = Some (JStr "Closures")
    /\ field "examples" lesson = Some (JArr examples)
    /\ length examples = 2%nat
    /\ forallb Schema.isStringItem examples = true
    /\ Schema.isString (field "objective" lesson) = true
    /\ Schema.isString (field "content" lesson) = true
    /\ Schema.isString (field "practiceTask" lesson) = true.
Proof.
  exact (lesson_fallback_shape literalParse service
           (answering "A closure is") (answering "(lambda")
           "Closures" "JavaScript" "Lisp" "advanced" "beginner"
           "A closure is" "(lambda" eq_refl eq_refl eq_refl eq_refl).
Defined.

(** ** The route table *)

(** X12. Whether the user is authenticated or not, every route of the table
    ends on a page after at most two redirections (no redirection loops, none
    leads outside the table), and that page is one of the protected pages
    exactly when the user is authenticated: the dashboard, the week view and
    the lesson view are never shown to a visitor, the login and registration
    pages never to a user who is logged in. *)
Theorem routes_settle (isAuthenticated : bool) (path : string) (el : App.element) :
  (path, el) ∈ App.routes isAuthenticated ->
  exists p : App.page,
    App.settle 2 (App.routes isAuthenticated) el = Some p
    /\ App.isPrivate p = isAuthenticated.
Proof.
  unfold App.routes; rewrite !elem_of_cons, elem_of_nil.
  intros Hin; decompose [or] Hin; clear Hin;
    match goal with
    | H : (_, _) = (_, _) |- _ => injection H as -> ->
    | H : False |- _ => destruct H
    end;
    destruct isAuthenticated; eexists; split; reflexivity.
Qed.

Lemma routes_settle_witness :
  exists p : App.page,
    App.settle 2 (App.routes false) (App.Navigate "/dashboard") = Some p
    /\ App.isPrivate p = false.
Proof.
  apply (routes_settle false "/" (App.Navigate "/dashboard")).
  apply elem_of_cons; left; reflexivity.
Defined.
